(** * Elementwise kernel synthesis of the TFLite OpenCL delegate

    A shallow embedding of
    [tensorflow/lite/delegates/gpu/cl/kernels/elementwise.cc]: the two
    code templates ([GetOneInputCode], [GetTwoInputCode]), the three
    operation variants built on them, the late binding of the secondary
    tensor ([SetArgs]) and the constant-tensor factories.

    Generated source text is a [string]; a statement of the generated
    code is one newline-terminated line of it. *)

From Stdlib Require Import String Ascii List Bool ZArith QArith Lia.
Import ListNotations.
Local Close Scope Q_scope.
Local Open Scope list_scope.
Local Open Scope string_scope.

(** ** Text helpers *)

(** The character written [\n] in the C++ literals. *)
Definition newline : ascii := "010"%char.

Definition nl : string := String newline EmptyString.

(** Splits generated text into its lines; every newline closes a line,
    and text after the last newline (when there is some) is a last line. *)
Fixpoint lines (s : string) : list string :=
  match s with
  | EmptyString => []
  | String c rest =>
      if Ascii.eqb c newline then EmptyString :: lines rest
      else match lines rest with
           | [] => [String c EmptyString]
           | l :: ls => String c l :: ls
           end
  end.

Fixpoint has_newline (s : string) : bool :=
  match s with
  | EmptyString => false
  | String c rest => Ascii.eqb c newline || has_newline rest
  end.

(** [is_prefix p s]: [s] starts with [p]. *)
Definition is_prefix (p s : string) : bool := String.prefix p s.

(** ** absl::Substitute

    [Substitute(format, a0, a1, ...)] copies [format], replacing [$N]
    (one decimal digit) by the N-th argument and [$$] by a dollar sign.
    The arguments are inserted as they are and are not scanned again.  A
    [$] followed by anything else, or by a digit with no such argument,
    makes the format invalid: optimised builds then produce the empty
    string (debug builds abort). *)

Definition digit_of (c : ascii) : option nat :=
  let n := nat_of_ascii c in
  if andb (Nat.leb 48 n) (Nat.leb n 57) then Some (n - 48) else None.

Fixpoint substitute_go (format : string) (args : list string) : option string :=
  match format with
  | EmptyString => Some EmptyString
  | String c rest =>
      if Ascii.eqb c "$"%char then
        match rest with
        | EmptyString => None
        | String d rest' =>
            match digit_of d with
            | Some i =>
                match nth_error args i, substitute_go rest' args with
                | Some a, Some out => Some (a ++ out)
                | _, _ => None
                end
            | None =>
                if Ascii.eqb d "$"%char then
                  option_map (String "$"%char) (substitute_go rest' args)
                else None
            end
        end
      else option_map (String c) (substitute_go rest args)
  end.

Definition Substitute (format : string) (args : list string) : string :=
  match substitute_go format args with
  | Some out => out
  | None => EmptyString
  end.

(** ** Enumerations of the delegate *)

(** Modelled from the spec: [CalculationsPrecision] is declared in a
    header outside this file; the code names only [F32] and treats every
    other mode alike (the reduced-precision modes). *)
Inductive CalculationsPrecision : Type :=
  | F32
  | F32_F16
  | F16.

Definition precision_eqb (a b : CalculationsPrecision) : bool :=
  match a, b with
  | F32, F32 | F32_F16, F32_F16 | F16, F16 => true
  | _, _ => false
  end.

(** Modelled from the spec: [OperationType] is declared in a header
    outside this file.  The nineteen enumerators this file names are
    listed; [OTHER_OPERATION] stands for every other enumerator, told
    apart by its number. *)
Inductive OperationType : Type :=
  | ABS | COS | EXP | HARD_SWISH | LOG | RSQRT | SIGMOID | SIN | SQRT
  | SQUARE | TANH
  | ADD | DIV | MAXIMUM | MINIMUM | MUL | POW | SQUARED_DIFF | SUB
  | OTHER_OPERATION (id : nat).

(** The catalog: the operations with a one-input template and those with
    a two-input template. *)
Definition is_unary (op : OperationType) : bool :=
  match op with
  | ABS | COS | EXP | HARD_SWISH | LOG | RSQRT | SIGMOID | SIN | SQRT
  | SQUARE | TANH => true
  | _ => false
  end.

Definition is_binary (op : OperationType) : bool :=
  match op with
  | ADD | DIV | MAXIMUM | MINIMUM | MUL | POW | SQUARED_DIFF | SUB => true
  | _ => false
  end.

(** ** The code templates *)

Definition unknown_operation : string := "Unknown operation type;" ++ nl.

Definition GetOneInputCode (op_type : OperationType)
    (precision : CalculationsPrecision) (input0 : string) : string :=
  let render (result : string) := Substitute result [input0] in
  match op_type with
  | ABS => render ("$0 = fabs($0);" ++ nl)
  | COS => render ("$0 = cos($0);" ++ nl)
  | EXP => render ("$0 = exp($0);" ++ nl)
  | HARD_SWISH =>
      render ("$0 *= clamp($0 * (FLT)(0.16666667f) + (FLT)(0.5f), (FLT4)(0.0f), "
              ++ "(FLT4)(1.0f));" ++ nl)
  | LOG => render ("$0 = log($0);" ++ nl)
  | RSQRT => render ("$0 = (FLT4)(1.0f) / sqrt($0);" ++ nl)
  | SIGMOID =>
      if negb (precision_eqb precision F32) then
        let result :=
          "$0.x = convert_half(native_recip(1.0f + "
          ++ "native_exp(convert_float(-$0.x))));" ++ nl in
        let result := result ++
          "$0.y = convert_half(native_recip(1.0f + "
          ++ "native_exp(convert_float(-$0.y))));" ++ nl in
        let result := result ++
          "$0.z = convert_half(native_recip(1.0f + "
          ++ "native_exp(convert_float(-$0.z))));" ++ nl in
        let result := result ++
          "$0.w = convert_half(native_recip(1.0f + "
          ++ "native_exp(convert_float(-$0.w))));" ++ nl in
        render result
      else
        render ("$0 = (FLT4)(1.0f) / ((FLT4)(1.0f) + exp(-($0)));" ++ nl)
  | SIN => render ("$0 = sin($0);" ++ nl)
  | SQRT => render ("$0 = sqrt($0);" ++ nl)
  | SQUARE => render ("$0 *= $0;" ++ nl)
  | TANH => render ("$0 = tanh($0);" ++ nl)
  | _ => unknown_operation
  end.

Definition GetTwoInputCode (op_type : OperationType)
    (input0 input1 : string) : string :=
  let render (result : string) := Substitute result [input0; input1] in
  match op_type with
  | ADD => render ("" ++ "$0 += $1;" ++ nl)
  | DIV => render ("" ++ "$0 /= $1;" ++ nl)
  | MAXIMUM => render ("" ++ "$0 = max($0, $1);" ++ nl)
  | MINIMUM => render ("" ++ "$0 = min($0, $1);" ++ nl)
  | MUL => render ("" ++ "$0 *= $1;" ++ nl)
  | POW => render ("" ++ "$0 = pow($0, $1);" ++ nl)
  | SQUARED_DIFF =>
      let result := "" ++ "$0 -= $1;" ++ nl in
      let result := result ++ "$0 *= $0;" ++ nl in
      render result
  | SUB => render ("" ++ "$0 -= $1;" ++ nl)
  | _ => unknown_operation
  end.

(** ** Collaborators declared outside this file

    The translation unit uses types and functions of the delegate that
    other files define.  They are the parameters of the embedding. *)

(** The opaque types: host [float], the [half] type, the enumerations of
    tensor descriptors, device-resident tensors and the OpenCL handles. *)
Class DelegateTypes : Type := {
  float : Type;
  half : Type;
  DataType : Type;
  TensorStorageType : Type;
  Layout : Type;
  Tensor : Type;
  CLContext : Type;
  CLDevice : Type;
  CLCommandQueue : Type
}.

(** [absl::Status]: [OkStatus] or an error with its message. *)
Inductive Status : Type :=
  | OkStatus
  | ErrorStatus (message : string).

Definition ok (s : Status) : bool :=
  match s with
  | OkStatus => true
  | ErrorStatus _ => false
  end.

Inductive AccessType : Type :=
  | READ
  | WRITE
  | READ_WRITE.

(** Shapes; the extents are [int32_t] and are only stored and compared. *)
Record Linear : Type := mkLinear { v : Z }.

Record HWC : Type := mkHWC { hwc_h : Z; hwc_w : Z; hwc_c : Z }.

Record BHWC : Type := mkBHWC { b : Z; h : Z; w : Z; c : Z }.

Record BroadcastSettings : Type := mkBroadcastSettings {
  width : bool;
  height : bool;
  channels : bool
}.

(** [absl::StrCat]. *)
Definition StrCat (pieces : list string) : string :=
  fold_right append EmptyString pieces.

Section DataModel.
Context `{T : DelegateTypes}.

(** Modelled from the spec: [TensorDescriptor] is declared outside this
    file; it holds a data type, a storage type, a layout and the state
    variables set through [SetStateVar]. *)
Record TensorDescriptor : Type := mkTensorDescriptor {
  data_type : DataType;
  storage_type : TensorStorageType;
  layout : Layout;
  state_vars : list (string * string)
}.

(** [state_vars_[key] = value] on a map: the key's earlier value goes. *)
Definition SetStateVar (key value : string) (d : TensorDescriptor)
    : TensorDescriptor :=
  {| data_type := data_type d;
     storage_type := storage_type d;
     layout := layout d;
     state_vars :=
       (key, value)
       :: filter (fun kv => negb (String.eqb (fst kv) key)) (state_vars d) |}.

(** Modelled from the spec: [OperationDef] is declared outside this
    file; this file reads its precision and its source descriptors. *)
Record OperationDef : Type := mkOperationDef {
  precision : CalculationsPrecision;
  src_tensors : list TensorDescriptor;
  dst_tensors : list TensorDescriptor
}.

Record CreationContext : Type := mkCreationContext {
  device : CLDevice;
  context : CLContext;
  queue : CLCommandQueue
}.

(** Host-side constant tensors [Tensor<Linear, FLOAT32>] and
    [Tensor<HWC, FLOAT32>]. *)
Record LinearTensor : Type := mkLinearTensor {
  linear_shape : Linear;
  linear_data : list float
}.

Record HWCTensor : Type := mkHWCTensor {
  hwc_shape : HWC;
  hwc_data : list float
}.

(** Modelled from the spec: the argument binder ([Arguments]) is declared
    outside this file.  It records named runtime arguments: a scalar kept
    as a float or as a half, a reference to a tensor supplied later, or an
    owned tensor.  The declarations are kept in the order they are made. *)
Inductive ArgumentBinding : Type :=
  | FloatValue (name : string) (value : float)
  | HalfValue (name : string) (value : half)
  | ObjectRef (name : string) (access : AccessType)
      (descriptor : TensorDescriptor)
  | Object (name : string) (access : AccessType) (object : Tensor)
      (descriptor : TensorDescriptor).

Definition Arguments : Type := list ArgumentBinding.

Definition AddFloat (name : string) (value : float) (args : Arguments)
    : Arguments := (args ++ [FloatValue name value])%list.

Definition AddHalf (name : string) (value : half) (args : Arguments)
    : Arguments := (args ++ [HalfValue name value])%list.

Definition AddObjectRef (name : string) (access : AccessType)
    (descriptor : TensorDescriptor) (args : Arguments) : Arguments :=
  (args ++ [ObjectRef name access descriptor])%list.

Definition AddObject (name : string) (access : AccessType) (object : Tensor)
    (descriptor : TensorDescriptor) (args : Arguments) : Arguments :=
  (args ++ [Object name access object descriptor])%list.

(** The functions of other files this one calls. *)
Class DelegateEnv : Type := {
  (* the converting constructor [half(float)] *)
  half_of_float : float -> half;
  (* [Layout::HWC] *)
  Layout_HWC : Layout;
  IsPowerVR : CLDevice -> bool;
  IsBatchSupported : OperationDef -> bool;
  GetDataType : OperationDef -> DataType;
  GetPrimaryStorageType : OperationDef -> TensorStorageType;
  GetDescriptor : Tensor -> TensorDescriptor;
  (* a default-constructed [Tensor] *)
  empty_tensor : Tensor;
  SelectBestStorageType :
    CLContext -> CLDevice -> BHWC -> TensorStorageType -> DataType ->
    Layout -> TensorStorageType;
  (* [CreateTensor(context, device, shape, descriptor, &result)] *)
  CreateTensor :
    CLContext -> CLDevice -> BHWC -> TensorDescriptor -> Tensor ->
    Status * Tensor;
  (* [tensor.WriteData(queue, host_tensor)], one overload per host type *)
  WriteData_Linear : CLCommandQueue -> LinearTensor -> Tensor -> Status * Tensor;
  WriteData_HWC : CLCommandQueue -> HWCTensor -> Tensor -> Status * Tensor;
  (* [args->SetObjectRef(name, object)] *)
  SetObjectRef : string -> Tensor -> Arguments -> Status * Arguments
}.

End DataModel.

(** ** The operations *)

Section Operations.
Context `{T : DelegateTypes} `{E : @DelegateEnv T}.

(** What the classes below inherit from [ElementwiseOperation]: the
    definition, the declared arguments, the generated fragment and the
    source operands the fusion framework attaches later. *)
Record ElementwiseOperation : Type := mkElementwiseOperation {
  definition_ : OperationDef;
  args_ : Arguments;
  code_ : string;
  src_ : list Tensor
}.

(** The base-class constructor [ElementwiseOperation(definition)]. *)
Definition ElementwiseOperation_ctor (definition : OperationDef)
    : ElementwiseOperation :=
  {| definition_ := definition; args_ := []; code_ := EmptyString; src_ := [] |}.

Definition set_args_ (args : Arguments) (o : ElementwiseOperation)
    : ElementwiseOperation :=
  {| definition_ := definition_ o; args_ := args; code_ := code_ o;
     src_ := src_ o |}.

Definition set_code_ (code : string) (o : ElementwiseOperation)
    : ElementwiseOperation :=
  {| definition_ := definition_ o; args_ := args_ o; code_ := code;
     src_ := src_ o |}.

Definition set_src_ (src : list Tensor) (o : ElementwiseOperation)
    : ElementwiseOperation :=
  {| definition_ := definition_ o; args_ := args_ o; code_ := code_ o;
     src_ := src |}.

(** *** ElementwiseOneInput *)

Record ElementwiseOneInput : Type := mkElementwiseOneInput {
  one_input_base :> ElementwiseOperation;
  one_input_op_type_ : OperationType
}.

Definition ElementwiseOneInput_ctor (definition : OperationDef)
    (op_type : OperationType) : ElementwiseOneInput :=
  let base := ElementwiseOperation_ctor definition in
  let base :=
    set_code_ (GetOneInputCode op_type (precision definition) "in_out_value")
      base in
  {| one_input_base := base; one_input_op_type_ := op_type |}.

Definition CreateElementwiseOneInput (definition : OperationDef)
    (op_type : OperationType) : ElementwiseOneInput :=
  let operation := ElementwiseOneInput_ctor definition op_type in
  operation.

(** *** ElementwiseOneRuntimeOneScalar *)

Record ElementwiseOneRuntimeOneScalar : Type :=
  mkElementwiseOneRuntimeOneScalar {
  one_scalar_base :> ElementwiseOperation;
  one_scalar_op_type_ : OperationType
}.

(** [scalar_precision] is received and not read: the branch tests
    [definition.precision]. *)
Definition ElementwiseOneRuntimeOneScalar_ctor (definition : OperationDef)
    (op_type : OperationType) (scalar_parameter : float)
    (scalar_precision : CalculationsPrecision)
    : ElementwiseOneRuntimeOneScalar :=
  let base := ElementwiseOperation_ctor definition in
  let base :=
    if precision_eqb (precision definition) F32 then
      set_args_ (AddFloat "scalar" scalar_parameter (args_ base)) base
    else
      set_args_ (AddHalf "scalar" (half_of_float scalar_parameter) (args_ base))
        base in
  let base :=
    set_code_ (GetTwoInputCode op_type "in_out_value" "args.scalar") base in
  {| one_scalar_base := base; one_scalar_op_type_ := op_type |}.

Definition CreateElementwiseOneRuntimeOneScalar
    (creation_context : CreationContext) (definition : OperationDef)
    (op_type : OperationType) (scalar_parameter : float)
    : ElementwiseOneRuntimeOneScalar :=
  let scalar_precision :=
    if IsPowerVR (device creation_context) then F32
    else precision definition in
  let operation :=
    ElementwiseOneRuntimeOneScalar_ctor definition op_type scalar_parameter
      scalar_precision in
  operation.

(** *** ElementwiseTwoInput *)

Record ElementwiseTwoInput : Type := mkElementwiseTwoInput {
  two_input_base :> ElementwiseOperation;
  two_input_op_type_ : OperationType;
  broadcast_ : BroadcastSettings
}.

(** The constructor taking a reference to a tensor supplied later.
    [definition.src_tensors[1]] indexes a vector without a bounds check:
    with fewer than two source descriptors the behaviour is undefined,
    which is [None] here. *)
Definition ElementwiseTwoInput_ctor (definition : OperationDef)
    (op_type : OperationType) (broadcast : BroadcastSettings)
    : option ElementwiseTwoInput :=
  let base := ElementwiseOperation_ctor definition in
  match nth_error (src_tensors definition) 1 with
  | None => None
  | Some second =>
      let src_desc := second in
      let src_desc :=
        if IsBatchSupported definition then
          SetStateVar "BatchedWidth" "true" src_desc
        else src_desc in
      let base :=
        set_args_ (AddObjectRef "second_tensor" READ src_desc (args_ base))
          base in
      let x_coord := if width broadcast then "0" else "X_COORD" in
      let y_coord := if height broadcast then "0" else "Y_COORD" in
      let s_coord := if channels broadcast then "0" else "S_COORD" in
      let base :=
        set_code_
          (StrCat ["FLT4 second_val = args.second_tensor.Read("; x_coord;
                   ", "; y_coord; ", "; s_coord; ");" ++ nl])
          base in
      let base :=
        if channels broadcast then
          let base :=
            set_code_ (code_ base ++ "  second_val.y = second_val.x;" ++ nl)
              base in
          let base :=
            set_code_ (code_ base ++ "  second_val.z = second_val.x;" ++ nl)
              base in
          set_code_ (code_ base ++ "  second_val.w = second_val.x;" ++ nl) base
        else base in
      let base :=
        set_code_
          (code_ base ++ GetTwoInputCode op_type "in_out_value" "second_val")
          base in
      Some {| two_input_base := base; two_input_op_type_ := op_type;
              broadcast_ := broadcast |}
  end.

(** The constructor taking ownership of an uploaded constant tensor. *)
Definition ElementwiseTwoInput_ctor_constant (definition : OperationDef)
    (op_type : OperationType) (broadcast : BroadcastSettings)
    (constant_tensor : Tensor) : ElementwiseTwoInput :=
  let base := ElementwiseOperation_ctor definition in
  let descriptor := GetDescriptor constant_tensor in
  let base :=
    set_args_
      (AddObject "second_tensor" READ constant_tensor descriptor (args_ base))
      base in
  let x_coord := if width broadcast then "0" else "X_COORD" in
  let y_coord := if height broadcast then "0" else "Y_COORD" in
  let s_coord := if channels broadcast then "0" else "S_COORD" in
  let base :=
    set_code_
      (StrCat ["FLT4 second_val = args.second_tensor.Read("; x_coord;
               ", "; y_coord; ", "; s_coord; ");" ++ nl])
      base in
  let base :=
    if channels broadcast then
      let base :=
        set_code_ (code_ base ++ "  second_val.y = second_val.x;" ++ nl) base in
      let base :=
        set_code_ (code_ base ++ "  second_val.z = second_val.x;" ++ nl) base in
      set_code_ (code_ base ++ "  second_val.w = second_val.x;" ++ nl) base
    else base in
  let base :=
    set_code_
      (code_ base ++ GetTwoInputCode op_type "in_out_value" "second_val")
      base in
  {| two_input_base := base; two_input_op_type_ := op_type;
     broadcast_ := broadcast |}.

(** The fusion framework attaches the source operands after
    construction; [with_src] is that assignment to [src_]. *)
Definition with_src (src : list Tensor) (operation : ElementwiseTwoInput)
    : ElementwiseTwoInput :=
  {| two_input_base := set_src_ src operation;
     two_input_op_type_ := two_input_op_type_ operation;
     broadcast_ := broadcast_ operation |}.

(** [SetArgs]: the binder is called only when [src_.size() == 2], with
    [src_[1]]; [RETURN_IF_ERROR] hands back its status when it is not ok. *)
Definition SetArgs (operation : ElementwiseTwoInput) (unique_postfix : string)
    (args : Arguments) : Status * Arguments :=
  let tensor_name := StrCat ["second_tensor"; unique_postfix] in
  match src_ operation with
  | [_; second] =>
      let '(status, args) := SetObjectRef tensor_name second args in
      if ok status then (OkStatus, args) else (status, args)
  | _ => (OkStatus, args)
  end.

(** The factories that upload a host constant.  [result] is the
    caller's object, assigned only when every step succeeded. *)
Definition CreateElementwiseTwoInput_Linear
    (creation_context : CreationContext) (definition : OperationDef)
    (op_type : OperationType) (constant_tensor : LinearTensor)
    (result : ElementwiseTwoInput) : Status * ElementwiseTwoInput :=
  let shape := mkBHWC 1 1 1 (v (linear_shape constant_tensor)) in
  let storage_type :=
    SelectBestStorageType (context creation_context) (device creation_context)
      shape (GetPrimaryStorageType definition) (GetDataType definition)
      Layout_HWC in
  let desc := mkTensorDescriptor (GetDataType definition) storage_type
                Layout_HWC [] in
  let gpu_tensor := empty_tensor in
  let '(status, gpu_tensor) :=
    CreateTensor (context creation_context) (device creation_context) shape
      desc gpu_tensor in
  if negb (ok status) then (status, result) else
  let '(status, gpu_tensor) :=
    WriteData_Linear (queue creation_context) constant_tensor gpu_tensor in
  if negb (ok status) then (status, result) else
  let broadcast :=
    {| width := true; height := true; channels := Z.eqb (c shape) 1 |} in
  let result :=
    ElementwiseTwoInput_ctor_constant definition op_type broadcast gpu_tensor in
  (OkStatus, result).

Definition CreateElementwiseTwoInput_HWC
    (creation_context : CreationContext) (definition : OperationDef)
    (op_type : OperationType) (constant_tensor : HWCTensor)
    (result : ElementwiseTwoInput) : Status * ElementwiseTwoInput :=
  let shape :=
    mkBHWC 1 (hwc_h (hwc_shape constant_tensor))
      (hwc_w (hwc_shape constant_tensor)) (hwc_c (hwc_shape constant_tensor)) in
  let storage_type :=
    SelectBestStorageType (context creation_context) (device creation_context)
      shape (GetPrimaryStorageType definition) (GetDataType definition)
      Layout_HWC in
  let desc := mkTensorDescriptor (GetDataType definition) storage_type
                Layout_HWC [] in
  let gpu_tensor := empty_tensor in
  let '(status, gpu_tensor) :=
    CreateTensor (context creation_context) (device creation_context) shape
      desc gpu_tensor in
  if negb (ok status) then (status, result) else
  let '(status, gpu_tensor) :=
    WriteData_HWC (queue creation_context) constant_tensor gpu_tensor in
  if negb (ok status) then (status, result) else
  let broadcast :=
    {| width := Z.eqb (w shape) 1; height := Z.eqb (h shape) 1;
       channels := Z.eqb (c shape) 1 |} in
  let result :=
    ElementwiseTwoInput_ctor_constant definition op_type broadcast gpu_tensor in
  (OkStatus, result).

(** The factories for a secondary tensor supplied at run time. *)
Definition CreateElementwiseTwoInput_shape (definition : OperationDef)
    (op_type : OperationType) (shape : BHWC) : option ElementwiseTwoInput :=
  let broadcast :=
    {| width := Z.eqb (w shape) 1; height := Z.eqb (h shape) 1;
       channels := Z.eqb (c shape) 1 |} in
  ElementwiseTwoInput_ctor definition op_type broadcast.

Definition CreateElementwiseTwoInput (definition : OperationDef)
    (op_type : OperationType) : option ElementwiseTwoInput :=
  let broadcast := {| width := false; height := false; channels := false |} in
  ElementwiseTwoInput_ctor definition op_type broadcast.

End Operations.

(** ** A reference platform

    A small concrete instance of the collaborators, on which the general
    statements below are exercised: a device is its vendor, a tensor its
    shape, types and data, and the binder resolves a name only when it
    was declared as an object reference. *)

Inductive RefDataType : Type := FLOAT16 | FLOAT32.

Inductive RefStorageType : Type := BUFFER | TEXTURE_2D.

Inductive RefLayout : Type := LAYOUT_HWC | LAYOUT_BHWC.

Inductive RefVendor : Type := POWERVR | MALI | ADRENO.

Inductive RefHalf : Type := HalfOf (x : Q).

Record RefTensor : Type := mkRefTensor {
  ref_shape : BHWC;
  ref_data_type : RefDataType;
  ref_storage_type : RefStorageType;
  ref_data : list Q
}.

Definition ref_types : DelegateTypes :=
  {| float := Q;
     half := RefHalf;
     DataType := RefDataType;
     TensorStorageType := RefStorageType;
     Layout := RefLayout;
     Tensor := RefTensor;
     CLContext := unit;
     CLDevice := RefVendor;
     CLCommandQueue := unit |}.

Definition ref_is_batched (d : @TensorDescriptor ref_types) : bool :=
  match layout d with
  | LAYOUT_BHWC => true
  | LAYOUT_HWC => false
  end.

Definition ref_create_tensor (shape : BHWC) (desc : @TensorDescriptor ref_types)
    (out : RefTensor) : Status * RefTensor :=
  if (0 <? b shape)%Z && (0 <? h shape)%Z && (0 <? w shape)%Z
     && (0 <? c shape)%Z
  then (OkStatus, mkRefTensor shape (data_type desc) (storage_type desc) [])
  else (ErrorStatus "Failed to allocate device memory", out).

Definition ref_write_data (data : list Q) (t : RefTensor)
    : Status * RefTensor :=
  let s := ref_shape t in
  if (Z.of_nat (List.length data) =? b s * h s * w s * c s)%Z
  then (OkStatus,
        mkRefTensor s (ref_data_type t) (ref_storage_type t) data)
  else (ErrorStatus "Failed to upload data", t).

Fixpoint ref_bind (name : string) (object : @Tensor ref_types)
    (args : @Arguments ref_types) : option (@Arguments ref_types) :=
  match args with
  | [] => None
  | ObjectRef n a d :: rest =>
      if String.eqb n name then Some (Object n a object d :: rest)
      else option_map (cons (ObjectRef n a d)) (ref_bind name object rest)
  | other :: rest => option_map (cons other) (ref_bind name object rest)
  end.

Definition ref_set_object_ref (name : string) (object : @Tensor ref_types)
    (args : @Arguments ref_types) : Status * @Arguments ref_types :=
  match ref_bind name object args with
  | Some bound => (OkStatus, bound)
  | None => (ErrorStatus ("No object ref with name - " ++ name), args)
  end.

Definition ref_env : @DelegateEnv ref_types :=
  {| half_of_float := HalfOf : @float ref_types -> @half ref_types;
     Layout_HWC := LAYOUT_HWC : @Layout ref_types;
     IsPowerVR := fun d : @CLDevice ref_types =>
       match d with POWERVR => true | _ => false end;
     IsBatchSupported := fun d =>
       existsb ref_is_batched (src_tensors d ++ dst_tensors d)%list;
     GetDataType := fun d =>
       if precision_eqb (precision d) F32 then FLOAT32 else FLOAT16;
     GetPrimaryStorageType := fun d =>
       match src_tensors d with
       | first :: _ => storage_type first
       | [] => BUFFER
       end;
     GetDescriptor := fun t : @Tensor ref_types =>
       @mkTensorDescriptor ref_types (ref_data_type t) (ref_storage_type t)
         LAYOUT_HWC [];
     empty_tensor := mkRefTensor (mkBHWC 0 0 0 0) FLOAT32 BUFFER [];
     SelectBestStorageType := fun _ _ _ preferred _ _ => preferred;
     CreateTensor := fun _ _ shape desc out => ref_create_tensor shape desc out;
     WriteData_Linear := fun _ host t => ref_write_data (linear_data host) t;
     WriteData_HWC := fun _ host t => ref_write_data (hwc_data host) t;
     SetObjectRef := ref_set_object_ref |}.

(** Sample inputs on the reference platform. *)
Definition ref_descriptor (l : RefLayout) : @TensorDescriptor ref_types :=
  @mkTensorDescriptor ref_types FLOAT16 TEXTURE_2D l [].

Definition ref_definition (p : CalculationsPrecision) : @OperationDef ref_types :=
  @mkOperationDef ref_types p
    [ref_descriptor LAYOUT_HWC; ref_descriptor LAYOUT_HWC]
    [ref_descriptor LAYOUT_HWC].

Definition ref_context (vendor : RefVendor) : @CreationContext ref_types :=
  @mkCreationContext ref_types vendor tt tt.

Definition ref_tensor (n : Z) : @Tensor ref_types :=
  mkRefTensor (mkBHWC 1 1 1 n) FLOAT16 TEXTURE_2D [].

Definition two_and_a_half : Q := 2.5%Q.

Definition no_broadcast : BroadcastSettings :=
  {| width := false; height := false; channels := false |}.

(** The arguments of an assembled kernel in which the reference of a
    linked operation was declared under the postfix [_link0]. *)
Definition ref_kernel_args : @Arguments ref_types :=
  [ObjectRef "second_tensor_link0" READ (ref_descriptor LAYOUT_HWC)].

Definition ref_linear_constant : @LinearTensor ref_types :=
  @mkLinearTensor ref_types (mkLinear 3) [1; 2; 3]%Q.

Definition ref_hwc_constant : @HWCTensor ref_types :=
  @mkHWCTensor ref_types (mkHWC 2 1 2) [1; 2; 3; 4]%Q.

(** An operation object a caller already holds. *)
Definition ref_result : @ElementwiseTwoInput ref_types :=
  @ElementwiseTwoInput_ctor_constant ref_types ref_env (ref_definition F16) ADD
    no_broadcast (ref_tensor 1).

(** The per-lane and the vectorised sigmoid statements, and the two
    statements of squared-diff, as the specification words them. *)
Definition sigmoid_lane_statement (x lane : string) : string :=
  x ++ "." ++ lane
  ++ " = convert_half(native_recip(1.0f + native_exp(convert_float(-"
  ++ x ++ "." ++ lane ++ "))));".

Definition sigmoid_vector_statement (x : string) : string :=
  x ++ " = (FLT4)(1.0f) / ((FLT4)(1.0f) + exp(-(" ++ x ++ ")));".

Definition lanes : list string := ["x"; "y"; "z"; "w"].

Definition subtract_statement (x y : string) : string := x ++ " -= " ++ y ++ ";".

Definition self_multiply_statement (x : string) : string := x ++ " *= " ++ x ++ ";".

(** The secondary read and the lane replication, as the specification
    words them. *)
Definition coordinate (broadcast_flag : bool) (token : string) : string :=
  if broadcast_flag then "0" else token.

Definition read_statement (x_coord y_coord s_coord : string) : string :=
  "FLT4 second_val = args.second_tensor.Read(" ++ x_coord ++ ", " ++ y_coord
  ++ ", " ++ s_coord ++ ");".

Definition replication_statements : list string :=
  ["  second_val.y = second_val.x;"; "  second_val.z = second_val.x;";
   "  second_val.w = second_val.x;"].

Definition is_replication (statement : string) : bool :=
  is_prefix "  second_val." statement.

(** What the specification says of a two-input fragment: its lines are the
    read, then the replication statements when channels are broadcast,
    then the lines of the binary operation, which hold no replication. *)
Definition broadcast_fragment (op_type : OperationType)
    (broadcast : BroadcastSettings) (code : string) : Prop :=
  lines code
  = (read_statement (coordinate (width broadcast) "X_COORD")
       (coordinate (height broadcast) "Y_COORD")
       (coordinate (channels broadcast) "S_COORD")
     :: (if channels broadcast then replication_statements else [])
     ++ lines (GetTwoInputCode op_type "in_out_value" "second_val"))%list
  /\ List.length (filter is_replication (lines code))
     = (if channels broadcast then 3 else 0)%nat
  /\ filter is_replication
       (lines (GetTwoInputCode op_type "in_out_value" "second_val")) = [].


(** The statement that a source list of two operands makes resolution
    succeed. *)
Definition second_operand_resolves `{T : DelegateTypes} `{E : @DelegateEnv T}
    (operation : ElementwiseTwoInput) (unique_postfix : string)
    (args : Arguments) : Prop :=
  List.length (src_ operation) = 2%nat ->
  ok (fst (SetArgs operation unique_postfix args)) = true.

(** The descriptor the constant-tensor factories allocate with. *)
Definition constant_descriptor `{T : DelegateTypes} `{E : @DelegateEnv T}
    (creation_context : CreationContext) (definition : OperationDef)
    (shape : BHWC) : TensorDescriptor :=
  mkTensorDescriptor (GetDataType definition)
    (SelectBestStorageType (context creation_context)
       (device creation_context) shape (GetPrimaryStorageType definition)
       (GetDataType definition) Layout_HWC)
    Layout_HWC [].

(** ** The catalog as text

    The statements each catalog entry stands for, with the operand names
    written where the templates have their placeholders. *)
Definition one_input_statements (op_type : OperationType)
    (precision : CalculationsPrecision) (x : string) : list string :=
  match op_type with
  | ABS => [x ++ " = fabs(" ++ x ++ ");"]
  | COS => [x ++ " = cos(" ++ x ++ ");"]
  | EXP => [x ++ " = exp(" ++ x ++ ");"]
  | HARD_SWISH =>
      [x ++ " *= clamp(" ++ x
       ++ " * (FLT)(0.16666667f) + (FLT)(0.5f), (FLT4)(0.0f), (FLT4)(1.0f));"]
  | LOG => [x ++ " = log(" ++ x ++ ");"]
  | RSQRT => [x ++ " = (FLT4)(1.0f) / sqrt(" ++ x ++ ");"]
  | SIGMOID =>
      if precision_eqb precision F32 then [sigmoid_vector_statement x]
      else map (sigmoid_lane_statement x) lanes
  | SIN => [x ++ " = sin(" ++ x ++ ");"]
  | SQRT => [x ++ " = sqrt(" ++ x ++ ");"]
  | SQUARE => [self_multiply_statement x]
  | TANH => [x ++ " = tanh(" ++ x ++ ");"]
  | _ => ["Unknown operation type;"]
  end.

Definition two_input_statements (op_type : OperationType) (x y : string)
    : list string :=
  match op_type with
  | ADD => [x ++ " += " ++ y ++ ";"]
  | DIV => [x ++ " /= " ++ y ++ ";"]
  | MAXIMUM => [x ++ " = max(" ++ x ++ ", " ++ y ++ ");"]
  | MINIMUM => [x ++ " = min(" ++ x ++ ", " ++ y ++ ");"]
  | MUL => [x ++ " *= " ++ y ++ ";"]
  | POW => [x ++ " = pow(" ++ x ++ ", " ++ y ++ ");"]
  | SQUARED_DIFF => [subtract_statement x y; self_multiply_statement x]
  | SUB => [subtract_statement x y]
  | _ => ["Unknown operation type;"]
  end.

(** Statements written out one per line, each closed by a newline. *)
Definition terminated (statements : list string) : string :=
  StrCat (map (fun statement => statement ++ nl) statements).

Definition one_input_statement_count (op_type : OperationType)
    (precision : CalculationsPrecision) : nat :=
  match op_type with
  | SIGMOID => if precision_eqb precision F32 then 1 else 4
  | _ => 1
  end.

Definition two_input_statement_count (op_type : OperationType) : nat :=
  match op_type with
  | SQUARED_DIFF => 2
  | _ => 1
  end.

Fixpoint contains_char (ch : ascii) (s : string) : bool :=
  match s with
  | EmptyString => false
  | String first rest => Ascii.eqb first ch || contains_char ch rest
  end.

(** [mentions needle text]: [needle] occurs in [text]. *)
Definition mentions (needle text : string) : bool :=
  match String.index 0 needle text with
  | Some _ => true
  | None => false
  end.

(** How a constant-tensor factory answers, given what the allocation
    returned and what the upload would return: the first failing step's
    status with [result] untouched, and success exactly when both steps
    succeed. *)
Definition upload_outcome `{T : DelegateTypes}
    (created : Status * Tensor) (write : Tensor -> Status * Tensor)
    (result : ElementwiseTwoInput)
    (answer : Status * ElementwiseTwoInput) : Prop :=
  (ok (fst created) = false -> answer = (fst created, result))
  /\ (ok (fst created) = true ->
      ok (fst (write (snd created))) = false ->
      answer = (fst (write (snd created)), result))
  /\ (ok (fst answer) = true <->
      ok (fst created) = true /\ ok (fst (write (snd created))) = true).

(** Host constants on the reference platform that cannot be uploaded:
    an empty linear vector and a planar tensor with too few values. *)
Definition ref_empty_linear_constant : @LinearTensor ref_types :=
  @mkLinearTensor ref_types (mkLinear 0) [].

Definition ref_short_hwc_constant : @HWCTensor ref_types :=
  @mkHWCTensor ref_types (mkHWC 2 1 2) [1; 2; 3]%Q.

Definition ref_hwc_row_constant : @HWCTensor ref_types :=
  @mkHWCTensor ref_types (mkHWC 1 1 3) [1; 2; 3]%Q.

(** * Properties *)

(** ** Generated text *)

Lemma append_assoc_string (s t u : string) : (s ++ t) ++ u = s ++ t ++ u.
Proof.
  induction s as [|ch s IH]; simpl; [reflexivity | now rewrite IH].
Qed.

Lemma has_newline_append (s t : string) :
  has_newline (s ++ t) = has_newline s || has_newline t.
Proof.
  induction s as [|ch s IH]; simpl; [reflexivity|].
  now rewrite IH, orb_assoc.
Qed.

Lemma append_empty_r (s : string) : s ++ EmptyString = s.
Proof.
  induction s as [|ch s IH]; simpl; [reflexivity | now rewrite IH].
Qed.

Lemma StrCat_pair (s t : string) : StrCat [s; t] = s ++ t.
Proof.
  unfold StrCat; simpl. now rewrite append_empty_r.
Qed.

(** A newline-free text followed by a newline is one line. *)
Lemma lines_statement (s rest : string) :
  has_newline s = false -> lines (s ++ nl ++ rest) = s :: lines rest.
Proof.
  change (nl ++ rest) with (String newline rest).
  induction s as [|ch s IH]; simpl; intros Hs.
  - reflexivity.
  - apply orb_false_iff in Hs as [Hch Hs].
    rewrite Hch, (IH Hs). reflexivity.
Qed.

Lemma lines_last_statement (s : string) :
  has_newline s = false -> lines (s ++ nl) = [s].
Proof.
  intros Hs. change (s ++ nl) with (s ++ nl ++ EmptyString).
  now rewrite lines_statement.
Qed.

Ltac newline_free :=
  repeat (rewrite has_newline_append);
  repeat match goal with
         | H : has_newline _ = false |- _ => rewrite H
         end;
  reflexivity.

Example GetOneInputCode_abs :
  GetOneInputCode ABS F16 "v" = "v = fabs(v);" ++ nl.
Proof. reflexivity. Qed.

Example GetOneInputCode_hard_swish :
  lines (GetOneInputCode HARD_SWISH F32 "v")
  = ["v *= clamp(v * (FLT)(0.16666667f) + (FLT)(0.5f), (FLT4)(0.0f), (FLT4)(1.0f));"].
Proof. reflexivity. Qed.

Example GetTwoInputCode_pow :
  lines (GetTwoInputCode POW "a" "b") = ["a = pow(a, b);"].
Proof. reflexivity. Qed.

(** A binary identifier has no one-input template, and a unary one no
    two-input template. *)
Example GetOneInputCode_of_binary :
  GetOneInputCode ADD F32 "v" = unknown_operation
  /\ GetTwoInputCode TANH "a" "b" = unknown_operation.
Proof. split; reflexivity. Qed.

(** The text of sigmoid, for any operand name. *)
Lemma sigmoid_reduced_text (precision : CalculationsPrecision) (x : string) :
  precision <> F32 ->
  GetOneInputCode SIGMOID precision x
  = StrCat (map (fun lane => sigmoid_lane_statement x lane ++ nl) lanes).
Proof.
  intros Hp. destruct precision; [contradiction| |];
    cbv [GetOneInputCode precision_eqb negb Substitute];
    unfold sigmoid_lane_statement, lanes, StrCat; simpl;
    repeat (rewrite append_assoc_string; simpl); reflexivity.
Qed.

Lemma sigmoid_full_text (x : string) :
  GetOneInputCode SIGMOID F32 x = sigmoid_vector_statement x ++ nl.
Proof.
  cbv [GetOneInputCode precision_eqb negb Substitute];
    unfold sigmoid_vector_statement; simpl;
    repeat (rewrite append_assoc_string; simpl); reflexivity.
Qed.

(** C4: sigmoid under a precision other than F32 is exactly four
    statements, one per lane x, y, z, w, each of the form
    [v.l = convert_half(native_recip(1.0f + native_exp(convert_float(-v.l))))];
    under F32 it is exactly one statement,
    [v = (FLT4)(1.0f) / ((FLT4)(1.0f) + exp(-(v)))]. *)
Theorem sigmoid_statements (precision : CalculationsPrecision) (input0 : string) :
  has_newline input0 = false ->
  (precision <> F32 ->
   lines (GetOneInputCode SIGMOID precision input0)
   = [sigmoid_lane_statement input0 "x"; sigmoid_lane_statement input0 "y";
      sigmoid_lane_statement input0 "z"; sigmoid_lane_statement input0 "w"]
   /\ List.length (lines (GetOneInputCode SIGMOID precision input0)) = 4%nat)
  /\ lines (GetOneInputCode SIGMOID F32 input0)
     = [sigmoid_vector_statement input0]
  /\ List.length (lines (GetOneInputCode SIGMOID F32 input0)) = 1%nat.
Proof.
  intros Hx.
  assert (Hlane : forall lane, has_newline lane = false ->
            has_newline (sigmoid_lane_statement input0 lane) = false).
  { intros lane Hl. unfold sigmoid_lane_statement. newline_free. }
  assert (Hvec : has_newline (sigmoid_vector_statement input0) = false).
  { unfold sigmoid_vector_statement. newline_free. }
  split; [intros Hp | ].
  - rewrite (sigmoid_reduced_text precision input0 Hp).
    unfold lanes, StrCat; simpl map; simpl fold_right.
    repeat (rewrite append_assoc_string).
    rewrite !lines_statement by (apply Hlane; reflexivity).
    split; reflexivity.
  - rewrite sigmoid_full_text, lines_last_statement by exact Hvec.
    split; reflexivity.
Qed.

Lemma sigmoid_statements_witness :
  has_newline "in_out_value" = false
  /\ F16 <> F32
  /\ lines (GetOneInputCode SIGMOID F16 "in_out_value")
     = [sigmoid_lane_statement "in_out_value" "x";
        sigmoid_lane_statement "in_out_value" "y";
        sigmoid_lane_statement "in_out_value" "z";
        sigmoid_lane_statement "in_out_value" "w"].
Proof.
  split; [reflexivity | split; [discriminate | ]].
  apply (sigmoid_statements F16 "in_out_value"); [reflexivity | discriminate].
Defined.

Lemma squared_diff_text (a b0 : string) :
  GetTwoInputCode SQUARED_DIFF a b0
  = subtract_statement a b0 ++ nl ++ self_multiply_statement a ++ nl.
Proof.
  cbv [GetTwoInputCode Substitute];
    unfold subtract_statement, self_multiply_statement; simpl;
    repeat (rewrite append_assoc_string; simpl); reflexivity.
Qed.

(** C6: squared-diff on operands (a, b) is exactly two statements, the
    subtraction [a -= b;] first and the self-multiplication [a *= a;]
    second. *)
Theorem squared_diff_statements (input0 input1 : string) :
  has_newline input0 = false ->
  has_newline input1 = false ->
  lines (GetTwoInputCode SQUARED_DIFF input0 input1)
  = [subtract_statement input0 input1; self_multiply_statement input0]
  /\ List.length (lines (GetTwoInputCode SQUARED_DIFF input0 input1)) = 2%nat.
Proof.
  intros H0 H1. rewrite squared_diff_text.
  rewrite lines_statement by (unfold subtract_statement; newline_free).
  rewrite lines_last_statement by (unfold self_multiply_statement; newline_free).
  split; reflexivity.
Qed.

Lemma squared_diff_statements_witness :
  lines (GetTwoInputCode SQUARED_DIFF "in_out_value" "second_val")
  = ["in_out_value -= second_val;"; "in_out_value *= in_out_value;"]
  /\ List.length
       (lines (GetTwoInputCode SQUARED_DIFF "in_out_value" "second_val"))
     = 2%nat.
Proof.
  apply (squared_diff_statements "in_out_value" "second_val"); reflexivity.
Defined.

(** ** The operation variants *)

Section Properties.
Context `{T : DelegateTypes} `{E : @DelegateEnv T}.

(** The scalar's representation follows [definition.precision] alone. *)
Lemma scalar_binding_follows_definition (creation_context : CreationContext)
    (definition : OperationDef) (op_type : OperationType)
    (scalar_parameter : float) :
  args_ (CreateElementwiseOneRuntimeOneScalar creation_context definition
           op_type scalar_parameter)
  = if precision_eqb (precision definition) F32
    then [FloatValue "scalar" scalar_parameter]
    else [HalfValue "scalar" (half_of_float scalar_parameter)].
Proof.
  unfold CreateElementwiseOneRuntimeOneScalar,
    ElementwiseOneRuntimeOneScalar_ctor.
  destruct (precision_eqb (precision definition) F32); reflexivity.
Qed.

Lemma SetArgs_without_two_operands (operation : ElementwiseTwoInput)
    (unique_postfix : string) (args : Arguments) :
  List.length (src_ operation) <> 2%nat ->
  SetArgs operation unique_postfix args = (OkStatus, args).
Proof.
  unfold SetArgs. destruct (src_ operation) as [|first [|second [|third rest]]];
    simpl; intros Hlen; try reflexivity.
  now contradiction Hlen.
Qed.

Lemma SetArgs_with_two_operands (operation : ElementwiseTwoInput)
    (unique_postfix : string) (args : Arguments) (first second : Tensor) :
  src_ operation = [first; second] ->
  SetArgs operation unique_postfix args
  = SetObjectRef ("second_tensor" ++ unique_postfix) second args.
Proof.
  unfold SetArgs. intros ->.
  rewrite StrCat_pair.
  destruct (SetObjectRef _ second args) as [[|message] bound]; reflexivity.
Qed.


(** C3 (as amended): with no secondary source operand, resolution
    under a unique postfix returns success and binds nothing; with a
    source list of size two it asks the binder to bind the name
    [second_tensor] followed by the postfix to the operand at position 1
    and returns the binder's outcome: it succeeds, with the arguments so
    bound, exactly when the binder accepts the name, and hands back the
    binder's error otherwise. *)
Theorem SetArgs_resolution (operation : ElementwiseTwoInput)
    (unique_postfix : string) (args : Arguments) :
  ((List.length (src_ operation) < 2)%nat ->
   SetArgs operation unique_postfix args = (OkStatus, args))
  /\ (forall first second,
        src_ operation = [first; second] ->
        SetArgs operation unique_postfix args
        = SetObjectRef ("second_tensor" ++ unique_postfix) second args
        /\ (ok (fst (SetArgs operation unique_postfix args)) = true
            <-> exists bound,
                  SetObjectRef ("second_tensor" ++ unique_postfix) second args
                  = (OkStatus, bound))
        /\ forall bound,
             SetObjectRef ("second_tensor" ++ unique_postfix) second args
             = (OkStatus, bound) ->
             SetArgs operation unique_postfix args = (OkStatus, bound)).
Proof.
  split.
  - intros Hlen. apply SetArgs_without_two_operands. lia.
  - intros first second Hsrc.
    rewrite (SetArgs_with_two_operands _ _ _ first second Hsrc).
    split; [reflexivity | split].
    + destruct (SetObjectRef _ second args) as [[|message] bound]; simpl;
        split.
      * intros _. exists bound. reflexivity.
      * reflexivity.
      * intros Hok. discriminate Hok.
      * intros [bound' Hbound]. discriminate Hbound.
    + intros bound Hbound; exact Hbound.
Qed.

(** C5: in the fragment of the two-input variant the secondary read
    takes the literal 0 on each axis whose broadcast flag is set and
    X_COORD, Y_COORD, S_COORD on the others; when the channels flag is set
    exactly three replication statements follow it, copying lane x into
    lanes y, z, w in that order, before the statements of the binary
    operation; otherwise there is none.  Both constructors do so. *)
Theorem broadcast_read_and_replication (definition : OperationDef)
    (op_type : OperationType) (broadcast : BroadcastSettings)
    (second : TensorDescriptor) (constant_tensor : Tensor) :
  nth_error (src_tensors definition) 1 = Some second ->
  (exists operation,
     ElementwiseTwoInput_ctor definition op_type broadcast = Some operation
     /\ broadcast_fragment op_type broadcast (code_ operation))
  /\ broadcast_fragment op_type broadcast
       (code_ (ElementwiseTwoInput_ctor_constant definition op_type broadcast
                 constant_tensor)).
Proof.
  intros Hsecond. unfold ElementwiseTwoInput_ctor. rewrite Hsecond.
  split; [eexists; split; [reflexivity|] | ];
    destruct broadcast as [[|] [|] [|]]; destruct op_type;
    repeat split; reflexivity.
Qed.

(** C10: the constructor taking a deferred tensor reference and the one
    taking an owned constant tensor generate the same fragment for every
    operation type, definition and broadcast settings; they differ in the
    binding declared under the name [second_tensor], an object reference
    in the first and an owned object in the second. *)
Theorem two_input_constructors_same_code (definition : OperationDef)
    (op_type : OperationType) (broadcast : BroadcastSettings)
    (constant_tensor : Tensor) (second : TensorDescriptor) :
  nth_error (src_tensors definition) 1 = Some second ->
  exists operation,
    ElementwiseTwoInput_ctor definition op_type broadcast = Some operation
    /\ code_ operation
       = code_ (ElementwiseTwoInput_ctor_constant definition op_type broadcast
                  constant_tensor)
    /\ two_input_op_type_ operation
       = two_input_op_type_
           (ElementwiseTwoInput_ctor_constant definition op_type broadcast
              constant_tensor)
    /\ broadcast_ operation
       = broadcast_
           (ElementwiseTwoInput_ctor_constant definition op_type broadcast
              constant_tensor)
    /\ args_ operation
       = [ObjectRef "second_tensor" READ
            (if IsBatchSupported definition
             then SetStateVar "BatchedWidth" "true" second else second)]
    /\ args_ (ElementwiseTwoInput_ctor_constant definition op_type broadcast
                constant_tensor)
       = [Object "second_tensor" READ constant_tensor
            (GetDescriptor constant_tensor)].
Proof.
  intros Hsecond. unfold ElementwiseTwoInput_ctor. rewrite Hsecond.
  eexists. split; [reflexivity|].
  unfold ElementwiseTwoInput_ctor_constant.
  destruct (channels broadcast), (IsBatchSupported definition);
    repeat split; reflexivity.
Qed.

(** C7: from a linear host vector of length C the factory allocates with
    the shape (1,1,1,C) and builds the operation with broadcast settings
    (width = true, height = true, channels = (C == 1)); from a planar host
    tensor of shape (H,W,C) it allocates with the shape (1,H,W,C) and
    builds the operation with (width = (W == 1), height = (H == 1),
    channels = (C == 1)).  The operation owns the uploaded tensor. *)
Theorem constant_tensor_shape_and_broadcast
    (creation_context : CreationContext) (definition : OperationDef)
    (op_type : OperationType) (result : ElementwiseTwoInput) :
  (forall (constant_tensor : LinearTensor) (allocated uploaded : Tensor),
     let shape := mkBHWC 1 1 1 (v (linear_shape constant_tensor)) in
     let broadcast :=
       {| width := true; height := true;
          channels := Z.eqb (v (linear_shape constant_tensor)) 1 |} in
     CreateTensor (context creation_context) (device creation_context) shape
       (constant_descriptor creation_context definition shape) empty_tensor
     = (OkStatus, allocated) ->
     WriteData_Linear (queue creation_context) constant_tensor allocated
     = (OkStatus, uploaded) ->
     CreateElementwiseTwoInput_Linear creation_context definition op_type
       constant_tensor result
     = (OkStatus,
        ElementwiseTwoInput_ctor_constant definition op_type broadcast uploaded)
     /\ broadcast_
          (snd (CreateElementwiseTwoInput_Linear creation_context definition
                  op_type constant_tensor result))
        = broadcast)
  /\ (forall (constant_tensor : HWCTensor) (allocated uploaded : Tensor),
        let shape :=
          mkBHWC 1 (hwc_h (hwc_shape constant_tensor))
            (hwc_w (hwc_shape constant_tensor))
            (hwc_c (hwc_shape constant_tensor)) in
        let broadcast :=
          {| width := Z.eqb (hwc_w (hwc_shape constant_tensor)) 1;
             height := Z.eqb (hwc_h (hwc_shape constant_tensor)) 1;
             channels := Z.eqb (hwc_c (hwc_shape constant_tensor)) 1 |} in
        CreateTensor (context creation_context) (device creation_context) shape
          (constant_descriptor creation_context definition shape) empty_tensor
        = (OkStatus, allocated) ->
        WriteData_HWC (queue creation_context) constant_tensor allocated
        = (OkStatus, uploaded) ->
        CreateElementwiseTwoInput_HWC creation_context definition op_type
          constant_tensor result
        = (OkStatus,
           ElementwiseTwoInput_ctor_constant definition op_type broadcast
             uploaded)
        /\ broadcast_
             (snd (CreateElementwiseTwoInput_HWC creation_context definition
                     op_type constant_tensor result))
           = broadcast).
Proof.
  split; intros constant_tensor allocated uploaded shape broadcast Hcreate
    Hwrite.
  - assert (Hrun : CreateElementwiseTwoInput_Linear creation_context definition
                     op_type constant_tensor result
                   = (OkStatus,
                      ElementwiseTwoInput_ctor_constant definition op_type
                        broadcast uploaded)).
    { unfold CreateElementwiseTwoInput_Linear.
      fold shape. fold (constant_descriptor creation_context definition shape).
      rewrite Hcreate; simpl. rewrite Hwrite; simpl. reflexivity. }
    split; [exact Hrun | rewrite Hrun; reflexivity].
  - assert (Hrun : CreateElementwiseTwoInput_HWC creation_context definition
                     op_type constant_tensor result
                   = (OkStatus,
                      ElementwiseTwoInput_ctor_constant definition op_type
                        broadcast uploaded)).
    { unfold CreateElementwiseTwoInput_HWC.
      fold shape. fold (constant_descriptor creation_context definition shape).
      rewrite Hcreate; simpl. rewrite Hwrite; simpl. reflexivity. }
    split; [exact Hrun | rewrite Hrun; reflexivity].
Qed.

(** A failed allocation or upload is handed back and [result] is left
    as it was. *)
Lemma constant_tensor_failure_keeps_result
    (creation_context : CreationContext) (definition : OperationDef)
    (op_type : OperationType) (constant_tensor : LinearTensor)
    (result : ElementwiseTwoInput) :
  ok (fst (CreateElementwiseTwoInput_Linear creation_context definition
             op_type constant_tensor result)) = false ->
  snd (CreateElementwiseTwoInput_Linear creation_context definition op_type
         constant_tensor result) = result.
Proof.
  unfold CreateElementwiseTwoInput_Linear.
  destruct (CreateTensor _ _ _ _ _) as [[|m1] t1]; simpl;
    [|reflexivity].
  destruct (WriteData_Linear _ _ _) as [[|m2] t2]; simpl;
    [discriminate | reflexivity].
Qed.

(** C8: the operand+scalar variant for ADD at full precision has the
    fragment [in_out_value += args.scalar;] and declares exactly one
    argument, the float named [scalar] holding the scalar's value. *)
Theorem add_scalar_full_precision (creation_context : CreationContext)
    (definition : OperationDef) (scalar_parameter : float) :
  precision definition = F32 ->
  let operation :=
    CreateElementwiseOneRuntimeOneScalar creation_context definition ADD
      scalar_parameter in
  code_ operation = "in_out_value += args.scalar;" ++ nl
  /\ lines (code_ operation) = ["in_out_value += args.scalar;"]
  /\ args_ operation = [FloatValue "scalar" scalar_parameter].
Proof.
  intros Hp operation. subst operation.
  rewrite scalar_binding_follows_definition, Hp.
  repeat split; reflexivity.
Qed.

(** C9: an operation identifier outside the catalog renders, in the
    one-input and in the two-input template alike, as the sentinel
    statement [Unknown operation type;], and every constructor returns an
    operation carrying it: none reports an error. *)
Theorem unknown_operation_is_rendered (op_type : OperationType)
    (precision0 : CalculationsPrecision) (input0 input1 : string)
    (creation_context : CreationContext) (definition : OperationDef)
    (scalar_parameter : float) (broadcast : BroadcastSettings)
    (constant_tensor : Tensor) :
  is_unary op_type = false ->
  is_binary op_type = false ->
  GetOneInputCode op_type precision0 input0 = "Unknown operation type;" ++ nl
  /\ GetTwoInputCode op_type input0 input1 = "Unknown operation type;" ++ nl
  /\ lines (code_ (CreateElementwiseOneInput definition op_type))
     = ["Unknown operation type;"]
  /\ lines (code_ (CreateElementwiseOneRuntimeOneScalar creation_context
                     definition op_type scalar_parameter))
     = ["Unknown operation type;"]
  /\ last (lines (code_ (ElementwiseTwoInput_ctor_constant definition op_type
                           broadcast constant_tensor))) EmptyString
     = "Unknown operation type;"
  /\ (forall second,
        nth_error (src_tensors definition) 1 = Some second ->
        exists operation,
          ElementwiseTwoInput_ctor definition op_type broadcast
          = Some operation
          /\ last (lines (code_ operation)) EmptyString
             = "Unknown operation type;").
Proof.
  intros Hunary Hbinary.
  destruct op_type; try discriminate Hunary; try discriminate Hbinary.
  repeat split; try reflexivity.
  - destruct broadcast as [[|] [|] [|]]; reflexivity.
  - intros second Hsecond. unfold ElementwiseTwoInput_ctor. rewrite Hsecond.
    eexists. split; [reflexivity|].
    destruct broadcast as [[|] [|] [|]]; reflexivity.
Qed.

End Properties.

(** ** The statements on the reference platform *)

(** C1: on a PowerVR device with an F16 definition the factory chooses
    F32 for the scalar and hands it to the constructor, yet the
    constructor declares the scalar as a half: the override does not
    reach the stored binding. *)
Theorem powervr_scalar_declared_as_half :
  @IsPowerVR ref_types ref_env (device (ref_context POWERVR)) = true
  /\ @CreateElementwiseOneRuntimeOneScalar ref_types ref_env
       (ref_context POWERVR) (ref_definition F16) ADD two_and_a_half
     = @ElementwiseOneRuntimeOneScalar_ctor ref_types ref_env
         (ref_definition F16) ADD two_and_a_half F32
  /\ args_ (@CreateElementwiseOneRuntimeOneScalar ref_types ref_env
              (ref_context POWERVR) (ref_definition F16) ADD two_and_a_half)
     = [@HalfValue ref_types "scalar" (HalfOf two_and_a_half)].
Proof.
  repeat split; reflexivity.
Qed.



(** C3 fails as stated: an operation built by the reference
    constructor, given two source operands, is resolved under the postfix
    [_link0] against its own arguments, where the reference is declared as
    [second_tensor]; the binder does not know [second_tensor_link0] and
    its error is handed back. *)
Lemma two_operands_resolution_can_fail :
  exists operation,
    @ElementwiseTwoInput_ctor ref_types ref_env (ref_definition F16) ADD
      no_broadcast = Some operation
    /\ src_ (with_src [ref_tensor 4; ref_tensor 1] operation)
       = [ref_tensor 4; ref_tensor 1]
    /\ @SetArgs ref_types ref_env
         (with_src [ref_tensor 4; ref_tensor 1] operation) "_link0"
         (args_ operation)
       = (ErrorStatus "No object ref with name - second_tensor_link0",
          args_ operation)
    /\ ~ @second_operand_resolves ref_types ref_env
           (with_src [ref_tensor 4; ref_tensor 1] operation) "_link0"
           (args_ operation).
Proof.
  eexists. split; [reflexivity|]. split; [reflexivity|].
  split; [reflexivity|].
  intros Hresolves. specialize (Hresolves eq_refl). discriminate Hresolves.
Qed.

Lemma SetArgs_resolution_witness :
  @SetArgs ref_types ref_env (with_src [ref_tensor 4] ref_result) "_link0"
    ref_kernel_args = (OkStatus, ref_kernel_args)
  /\ @SetArgs ref_types ref_env
       (with_src [ref_tensor 4; ref_tensor 1] ref_result) "_link0"
       ref_kernel_args
     = (OkStatus,
        [@Object ref_types "second_tensor_link0" READ (ref_tensor 1)
           (ref_descriptor LAYOUT_HWC)]).
Proof.
  split.
  - apply (proj1 (@SetArgs_resolution ref_types ref_env
                    (with_src [ref_tensor 4] ref_result) "_link0"
                    ref_kernel_args)).
    simpl; lia.
  - apply (proj2 (@SetArgs_resolution ref_types ref_env
                    (with_src [ref_tensor 4; ref_tensor 1] ref_result)
                    "_link0" ref_kernel_args)
             (ref_tensor 4) (ref_tensor 1) eq_refl).
    reflexivity.
Defined.

Lemma broadcast_read_and_replication_witness :
  nth_error (src_tensors (ref_definition F16)) 1
  = Some (ref_descriptor LAYOUT_HWC)
  /\ exists operation,
       @ElementwiseTwoInput_ctor ref_types ref_env (ref_definition F16) MUL
         {| width := true; height := false; channels := true |}
       = Some operation
       /\ lines (code_ operation)
          = ["FLT4 second_val = args.second_tensor.Read(0, Y_COORD, 0);";
             "  second_val.y = second_val.x;";
             "  second_val.z = second_val.x;";
             "  second_val.w = second_val.x;";
             "in_out_value *= second_val;"].
Proof.
  split; [reflexivity|].
  destruct (@broadcast_read_and_replication ref_types ref_env
              (ref_definition F16) MUL
              {| width := true; height := false; channels := true |}
              (ref_descriptor LAYOUT_HWC) (ref_tensor 4) eq_refl)
    as [[operation [Hctor [Hlines _]]] _].
  exists operation. split; [exact Hctor | exact Hlines].
Defined.

Lemma two_input_constructors_same_code_witness :
  nth_error (src_tensors (ref_definition F16)) 1
  = Some (ref_descriptor LAYOUT_HWC)
  /\ exists operation,
       @ElementwiseTwoInput_ctor ref_types ref_env (ref_definition F16)
         SQUARED_DIFF no_broadcast = Some operation
       /\ code_ operation
          = code_ (@ElementwiseTwoInput_ctor_constant ref_types ref_env
                     (ref_definition F16) SQUARED_DIFF no_broadcast
                     (ref_tensor 4)).
Proof.
  split; [reflexivity|].
  destruct (@two_input_constructors_same_code ref_types ref_env
              (ref_definition F16) SQUARED_DIFF no_broadcast (ref_tensor 4)
              (ref_descriptor LAYOUT_HWC) eq_refl)
    as [operation [Hctor [Hcode _]]].
  exists operation. split; [exact Hctor | exact Hcode].
Defined.

Lemma constant_tensor_shape_and_broadcast_witness :
  broadcast_
    (snd (@CreateElementwiseTwoInput_Linear ref_types ref_env
            (ref_context MALI) (ref_definition F16) MUL ref_linear_constant
            ref_result))
  = {| width := true; height := true; channels := false |}
  /\ broadcast_
       (snd (@CreateElementwiseTwoInput_HWC ref_types ref_env
               (ref_context MALI) (ref_definition F16) MUL ref_hwc_constant
               ref_result))
     = {| width := true; height := false; channels := false |}.
Proof.
  split.
  - apply (proj1 (@constant_tensor_shape_and_broadcast ref_types ref_env
                    (ref_context MALI) (ref_definition F16) MUL ref_result)
             ref_linear_constant
             (mkRefTensor (mkBHWC 1 1 1 3) FLOAT16 TEXTURE_2D [])
             (mkRefTensor (mkBHWC 1 1 1 3) FLOAT16 TEXTURE_2D [1; 2; 3]%Q)
             eq_refl eq_refl).
  - apply (proj2 (@constant_tensor_shape_and_broadcast ref_types ref_env
                    (ref_context MALI) (ref_definition F16) MUL ref_result)
             ref_hwc_constant
             (mkRefTensor (mkBHWC 1 2 1 2) FLOAT16 TEXTURE_2D [])
             (mkRefTensor (mkBHWC 1 2 1 2) FLOAT16 TEXTURE_2D [1; 2; 3; 4]%Q)
             eq_refl eq_refl).
Defined.

Lemma add_scalar_full_precision_witness :
  precision (ref_definition F32) = F32
  /\ code_ (@CreateElementwiseOneRuntimeOneScalar ref_types ref_env
              (ref_context MALI) (ref_definition F32) ADD two_and_a_half)
     = "in_out_value += args.scalar;" ++ nl
  /\ lines (code_ (@CreateElementwiseOneRuntimeOneScalar ref_types ref_env
                     (ref_context MALI) (ref_definition F32) ADD
                     two_and_a_half))
     = ["in_out_value += args.scalar;"]
  /\ args_ (@CreateElementwiseOneRuntimeOneScalar ref_types ref_env
              (ref_context MALI) (ref_definition F32) ADD two_and_a_half)
     = [@FloatValue ref_types "scalar" two_and_a_half].
Proof.
  split; [reflexivity|].
  apply (@add_scalar_full_precision ref_types ref_env (ref_context MALI)
           (ref_definition F32) two_and_a_half eq_refl).
Defined.

Lemma unknown_operation_is_rendered_witness :
  is_unary (OTHER_OPERATION 0) = false
  /\ is_binary (OTHER_OPERATION 0) = false
  /\ GetOneInputCode (OTHER_OPERATION 0) F16 "in_out_value"
     = "Unknown operation type;" ++ nl
  /\ GetTwoInputCode (OTHER_OPERATION 0) "in_out_value" "second_val"
     = "Unknown operation type;" ++ nl.
Proof.
  split; [reflexivity|]. split; [reflexivity|].
  destruct (@unknown_operation_is_rendered ref_types ref_env
              (OTHER_OPERATION 0) F16 "in_out_value" "second_val"
              (ref_context MALI) (ref_definition F16) two_and_a_half
              no_broadcast (ref_tensor 4) eq_refl eq_refl)
    as [Hone [Htwo _]].
  split; [exact Hone | exact Htwo].
Defined.

(** * Further properties of the templates *)

Lemma is_prefix_append (s rest : string) : is_prefix s (s ++ rest) = true.
Proof.
  unfold is_prefix. induction s as [|ch s IH]; simpl.
  - destruct rest; reflexivity.
  - destruct (ascii_dec ch ch) as [_|Hne]; [exact IH | now contradiction Hne].
Qed.

Lemma contains_char_append (ch : ascii) (s t : string) :
  contains_char ch (s ++ t) = contains_char ch s || contains_char ch t.
Proof.
  induction s as [|first s IH]; simpl; [reflexivity|].
  now rewrite IH, orb_assoc.
Qed.

Lemma append_cancel_l (s t u : string) : s ++ t = s ++ u -> t = u.
Proof.
  induction s as [|ch s IH]; simpl; intros H; [exact H|].
  injection H as H. exact (IH H).
Qed.

Lemma lines_terminated (statements : list string) :
  forallb (fun statement => negb (has_newline statement)) statements = true ->
  lines (terminated statements) = statements.
Proof.
  unfold terminated, StrCat.
  induction statements as [|statement rest IH]; simpl; intros Hfree.
  - reflexivity.
  - apply andb_true_iff in Hfree as [Hs Hrest].
    apply negb_true_iff in Hs.
    rewrite append_assoc_string, lines_statement by exact Hs.
    now rewrite IH.
Qed.

Ltac template_text :=
  cbv [GetOneInputCode GetTwoInputCode Substitute precision_eqb negb
       one_input_statements two_input_statements terminated StrCat
       unknown_operation sigmoid_lane_statement sigmoid_vector_statement
       subtract_statement self_multiply_statement lanes];
  simpl; repeat (rewrite append_assoc_string; simpl); reflexivity.

Lemma one_input_text (op_type : OperationType)
    (precision : CalculationsPrecision) (x : string) :
  GetOneInputCode op_type precision x
  = terminated (one_input_statements op_type precision x).
Proof.
  destruct op_type; try template_text.
  destruct precision; template_text.
Qed.

Lemma two_input_text (op_type : OperationType) (x y : string) :
  GetTwoInputCode op_type x y = terminated (two_input_statements op_type x y).
Proof.
  destruct op_type; template_text.
Qed.

Lemma one_input_statements_newline_free (op_type : OperationType)
    (precision : CalculationsPrecision) (x : string) :
  has_newline x = false ->
  forallb (fun statement => negb (has_newline statement))
    (one_input_statements op_type precision x) = true.
Proof.
  intros Hx.
  destruct op_type; try destruct precision;
    cbv [one_input_statements precision_eqb map lanes forallb
         sigmoid_lane_statement sigmoid_vector_statement
         self_multiply_statement];
    repeat (rewrite has_newline_append); rewrite ?Hx; reflexivity.
Qed.

Lemma two_input_statements_newline_free (op_type : OperationType)
    (x y : string) :
  has_newline x = false ->
  has_newline y = false ->
  forallb (fun statement => negb (has_newline statement))
    (two_input_statements op_type x y) = true.
Proof.
  intros Hx Hy.
  destruct op_type;
    cbv [two_input_statements forallb subtract_statement
         self_multiply_statement];
    repeat (rewrite has_newline_append); rewrite ?Hx, ?Hy; reflexivity.
Qed.

(** X1: for every operation type, precision and operand name, the
    one-input fragment is the catalog statement of that operation with the
    operand written in place of each placeholder, whatever characters the
    operand holds; for a newline-free operand its lines are those
    statements. *)
Theorem one_input_golden_fragments (op_type : OperationType)
    (precision : CalculationsPrecision) (input0 : string) :
  GetOneInputCode op_type precision input0
  = terminated (one_input_statements op_type precision input0)
  /\ (has_newline input0 = false ->
      lines (GetOneInputCode op_type precision input0)
      = one_input_statements op_type precision input0).
Proof.
  split; [apply one_input_text | intros Hx].
  rewrite one_input_text.
  apply lines_terminated, one_input_statements_newline_free, Hx.
Qed.

Lemma one_input_golden_fragments_witness :
  lines (GetOneInputCode RSQRT F16 "in_out_value")
  = ["in_out_value = (FLT4)(1.0f) / sqrt(in_out_value);"].
Proof.
  apply (proj2 (one_input_golden_fragments RSQRT F16 "in_out_value")).
  reflexivity.
Defined.

(** X2: for every operation type and operand names, the two-input
    fragment is the catalog statement of that operation with the two
    operands written in place of the placeholders; the operands are not
    scanned for placeholders again.  For newline-free operands its lines
    are those statements. *)
Theorem two_input_golden_fragments (op_type : OperationType)
    (input0 input1 : string) :
  GetTwoInputCode op_type input0 input1
  = terminated (two_input_statements op_type input0 input1)
  /\ (has_newline input0 = false ->
      has_newline input1 = false ->
      lines (GetTwoInputCode op_type input0 input1)
      = two_input_statements op_type input0 input1).
Proof.
  split; [apply two_input_text | intros Hx Hy].
  rewrite two_input_text.
  apply lines_terminated, two_input_statements_newline_free; assumption.
Qed.

Lemma two_input_golden_fragments_witness :
  lines (GetTwoInputCode MAXIMUM "$1" "args.scalar")
  = ["$1 = max($1, args.scalar);"].
Proof.
  apply (proj2 (two_input_golden_fragments MAXIMUM "$1" "args.scalar"));
    reflexivity.
Defined.

Lemma catalog_text_has_assignment (statements : list string) :
  contains_char "="%char (terminated statements) = true ->
  terminated statements <> unknown_operation.
Proof.
  intros Hc Heq. rewrite Heq in Hc. discriminate Hc.
Qed.

Ltac assignment_found :=
  cbv [one_input_statements two_input_statements terminated StrCat map
       fold_right precision_eqb lanes sigmoid_lane_statement
       sigmoid_vector_statement subtract_statement self_multiply_statement];
  repeat (rewrite contains_char_append); simpl;
  rewrite ?orb_true_r; reflexivity.

(** X3: a template answers with the sentinel for exactly the operation
    types outside its own half of the catalog, whatever the operand
    names: the one-input template for every type that is not unary (the
    binary ones included), the two-input template for every type that is
    not binary (the unary ones included).  No catalog entry can render as
    the sentinel. *)
Theorem sentinel_exactly_outside_catalog (op_type : OperationType)
    (precision : CalculationsPrecision) (input0 input1 : string) :
  (GetOneInputCode op_type precision input0 = unknown_operation
   <-> is_unary op_type = false)
  /\ (GetTwoInputCode op_type input0 input1 = unknown_operation
      <-> is_binary op_type = false).
Proof.
  split; split.
  - intros Hsentinel. destruct (is_unary op_type) eqn:Hunary; [|reflexivity].
    exfalso. revert Hsentinel. rewrite one_input_text.
    apply catalog_text_has_assignment.
    destruct op_type; try discriminate Hunary; try destruct precision;
      assignment_found.
  - intros Hunary. destruct op_type; try discriminate Hunary; reflexivity.
  - intros Hsentinel. destruct (is_binary op_type) eqn:Hbinary; [|reflexivity].
    exfalso. revert Hsentinel. rewrite two_input_text.
    apply catalog_text_has_assignment.
    destruct op_type; try discriminate Hbinary; assignment_found.
  - intros Hbinary. destruct op_type; try discriminate Hbinary; reflexivity.
Qed.

(** X4: the precision changes the one-input fragment of no operation
    but sigmoid; for sigmoid every precision other than F32 gives the same
    fragment, and that fragment differs from the F32 one for every operand
    name. *)
Theorem precision_matters_only_for_sigmoid (op_type : OperationType)
    (precision precision' : CalculationsPrecision) (input0 : string) :
  (op_type <> SIGMOID ->
   GetOneInputCode op_type precision input0
   = GetOneInputCode op_type precision' input0)
  /\ (precision <> F32 -> precision' <> F32 ->
      GetOneInputCode SIGMOID precision input0
      = GetOneInputCode SIGMOID precision' input0)
  /\ (precision <> F32 ->
      GetOneInputCode SIGMOID precision input0
      <> GetOneInputCode SIGMOID F32 input0).
Proof.
  split; [|split].
  - intros Hop. destruct op_type; try reflexivity. now contradiction Hop.
  - intros Hp Hp'.
    now rewrite (sigmoid_reduced_text precision input0 Hp),
      (sigmoid_reduced_text precision' input0 Hp').
  - intros Hp.
    rewrite (sigmoid_reduced_text precision input0 Hp), sigmoid_full_text.
    unfold lanes, StrCat, sigmoid_lane_statement, sigmoid_vector_statement.
    simpl map; simpl fold_right.
    repeat (rewrite append_assoc_string).
    intros Heq. apply append_cancel_l in Heq. discriminate Heq.
Qed.

Lemma precision_matters_only_for_sigmoid_witness :
  GetOneInputCode HARD_SWISH F16 "in_out_value"
  = GetOneInputCode HARD_SWISH F32 "in_out_value"
  /\ GetOneInputCode SIGMOID F16 "in_out_value"
     = GetOneInputCode SIGMOID F32_F16 "in_out_value"
  /\ GetOneInputCode SIGMOID F32_F16 "in_out_value"
     <> GetOneInputCode SIGMOID F32 "in_out_value".
Proof.
  split; [|split].
  - apply (proj1 (precision_matters_only_for_sigmoid HARD_SWISH F16 F32
                    "in_out_value")).
    discriminate.
  - apply (proj1 (proj2 (precision_matters_only_for_sigmoid SIGMOID F16
                           F32_F16 "in_out_value"))); discriminate.
  - apply (proj2 (proj2 (precision_matters_only_for_sigmoid SIGMOID F32_F16
                           F32 "in_out_value"))); discriminate.
Defined.

(** X5: the number of statements of a fragment, for newline-free
    operand names: the one-input fragment has four statements for sigmoid
    under a precision other than F32 and one statement otherwise; the
    two-input fragment has two statements for squared-diff and one
    otherwise.  The sentinel counts as one statement. *)
Theorem fragment_statement_counts (op_type : OperationType)
    (precision : CalculationsPrecision) (input0 input1 : string) :
  has_newline input0 = false ->
  has_newline input1 = false ->
  List.length (lines (GetOneInputCode op_type precision input0))
  = one_input_statement_count op_type precision
  /\ List.length (lines (GetTwoInputCode op_type input0 input1))
     = two_input_statement_count op_type.
Proof.
  intros Hx Hy. split.
  - rewrite one_input_text,
      lines_terminated by (apply one_input_statements_newline_free, Hx).
    destruct op_type; try reflexivity. destruct precision; reflexivity.
  - rewrite two_input_text,
      lines_terminated
      by (apply two_input_statements_newline_free; assumption).
    destruct op_type; reflexivity.
Qed.

Lemma fragment_statement_counts_witness :
  List.length (lines (GetOneInputCode SIGMOID F32_F16 "in_out_value")) = 4%nat
  /\ List.length (lines (GetTwoInputCode SQUARED_DIFF "in_out_value"
                           "args.scalar")) = 2%nat.
Proof.
  split.
  - apply (proj1 (fragment_statement_counts SIGMOID F32_F16 "in_out_value"
                    "args.scalar" eq_refl eq_refl)).
  - apply (proj2 (fragment_statement_counts SQUARED_DIFF F32_F16
                    "in_out_value" "args.scalar" eq_refl eq_refl)).
Defined.

(** X6: the templates work in place: for newline-free operand names,
    every statement of a unary operation's fragment starts with the
    operand name, and every statement of a binary operation's fragment
    starts with the name of the first operand. *)
Theorem catalog_statements_start_with_operand (op_type : OperationType)
    (precision : CalculationsPrecision) (input0 input1 : string) :
  has_newline input0 = false ->
  has_newline input1 = false ->
  (is_unary op_type = true ->
   forallb (is_prefix input0)
     (lines (GetOneInputCode op_type precision input0)) = true)
  /\ (is_binary op_type = true ->
      forallb (is_prefix input0)
        (lines (GetTwoInputCode op_type input0 input1)) = true).
Proof.
  intros Hx Hy. split.
  - intros Hunary.
    rewrite one_input_text,
      lines_terminated by (apply one_input_statements_newline_free, Hx).
    destruct op_type; try discriminate Hunary; try destruct precision;
      cbv [one_input_statements precision_eqb map lanes forallb
           sigmoid_lane_statement sigmoid_vector_statement
           self_multiply_statement];
      rewrite ?is_prefix_append; reflexivity.
  - intros Hbinary.
    rewrite two_input_text,
      lines_terminated
      by (apply two_input_statements_newline_free; assumption).
    destruct op_type; try discriminate Hbinary;
      cbv [two_input_statements forallb subtract_statement
           self_multiply_statement];
      rewrite ?is_prefix_append; reflexivity.
Qed.

Lemma catalog_statements_start_with_operand_witness :
  forallb (is_prefix "in_out_value")
    (lines (GetOneInputCode SIGMOID F16 "in_out_value")) = true
  /\ forallb (is_prefix "in_out_value")
       (lines (GetTwoInputCode SQUARED_DIFF "in_out_value" "second_val"))
     = true.
Proof.
  split.
  - apply (proj1 (catalog_statements_start_with_operand SIGMOID F16
                    "in_out_value" "second_val" eq_refl eq_refl)).
    reflexivity.
  - apply (proj2 (catalog_statements_start_with_operand SQUARED_DIFF F16
                    "in_out_value" "second_val" eq_refl eq_refl)).
    reflexivity.
Defined.

(** * Further properties of the operation variants *)

Section VariantProperties.
Context `{T : DelegateTypes} `{E : @DelegateEnv T}.

(** The two upload factories, step by step. *)
Lemma linear_factory_steps (creation_context : CreationContext)
    (definition : OperationDef) (op_type : OperationType)
    (constant_tensor : LinearTensor) (result : ElementwiseTwoInput) :
  let shape := mkBHWC 1 1 1 (v (linear_shape constant_tensor)) in
  let created :=
    CreateTensor (context creation_context) (device creation_context) shape
      (constant_descriptor creation_context definition shape) empty_tensor in
  let written :=
    WriteData_Linear (queue creation_context) constant_tensor (snd created) in
  CreateElementwiseTwoInput_Linear creation_context definition op_type
    constant_tensor result
  = if ok (fst created) then
      if ok (fst written) then
        (OkStatus,
         ElementwiseTwoInput_ctor_constant definition op_type
           {| width := true; height := true;
              channels := Z.eqb (v (linear_shape constant_tensor)) 1 |}
           (snd written))
      else (fst written, result)
    else (fst created, result).
Proof.
  intros shape created written. subst written created.
  unfold CreateElementwiseTwoInput_Linear.
  fold shape. fold (constant_descriptor creation_context definition shape).
  destruct (CreateTensor _ _ _ _ _) as [[|m1] t1]; simpl; [|reflexivity].
  destruct (WriteData_Linear _ _ _) as [[|m2] t2]; reflexivity.
Qed.

Lemma hwc_factory_steps (creation_context : CreationContext)
    (definition : OperationDef) (op_type : OperationType)
    (constant_tensor : HWCTensor) (result : ElementwiseTwoInput) :
  let shape :=
    mkBHWC 1 (hwc_h (hwc_shape constant_tensor))
      (hwc_w (hwc_shape constant_tensor))
      (hwc_c (hwc_shape constant_tensor)) in
  let created :=
    CreateTensor (context creation_context) (device creation_context) shape
      (constant_descriptor creation_context definition shape) empty_tensor in
  let written :=
    WriteData_HWC (queue creation_context) constant_tensor (snd created) in
  CreateElementwiseTwoInput_HWC creation_context definition op_type
    constant_tensor result
  = if ok (fst created) then
      if ok (fst written) then
        (OkStatus,
         ElementwiseTwoInput_ctor_constant definition op_type
           {| width := Z.eqb (hwc_w (hwc_shape constant_tensor)) 1;
              height := Z.eqb (hwc_h (hwc_shape constant_tensor)) 1;
              channels := Z.eqb (hwc_c (hwc_shape constant_tensor)) 1 |}
           (snd written))
      else (fst written, result)
    else (fst created, result).
Proof.
  intros shape created written. subst written created.
  unfold CreateElementwiseTwoInput_HWC.
  fold shape. fold (constant_descriptor creation_context definition shape).
  destruct (CreateTensor _ _ _ _ _) as [[|m1] t1]; simpl; [|reflexivity].
  destruct (WriteData_HWC _ _ _) as [[|m2] t2]; reflexivity.
Qed.

Lemma upload_outcome_of_steps (created : Status * Tensor)
    (write : Tensor -> Status * Tensor) (result built : ElementwiseTwoInput) :
  upload_outcome created write result
    (if ok (fst created) then
       if ok (fst (write (snd created))) then (OkStatus, built)
       else (fst (write (snd created)), result)
     else (fst created, result)).
Proof.
  unfold upload_outcome.
  destruct (ok (fst created)) eqn:Hc;
    [destruct (ok (fst (write (snd created)))) eqn:Hw|]; simpl;
    rewrite ?Hc, ?Hw; repeat split; try congruence; try tauto;
    intros [? ?]; congruence.
Qed.

(** The fragment of the owning constructor is a function of the
    operation type and the broadcast settings. *)
Lemma constant_ctor_code (definition definition' : OperationDef)
    (op_type : OperationType) (broadcast : BroadcastSettings)
    (tensor tensor' : Tensor) :
  code_ (ElementwiseTwoInput_ctor_constant definition op_type broadcast tensor)
  = code_ (ElementwiseTwoInput_ctor_constant definition' op_type broadcast
             tensor').
Proof.
  unfold ElementwiseTwoInput_ctor_constant.
  destruct (channels broadcast); reflexivity.
Qed.

(** X7: the operand+scalar factory builds the same operation for every
    creation context, PowerVR or not: it declares one argument named
    [scalar], a float holding the value when [definition.precision] is F32
    and the half conversion of the value otherwise.  The fragment uses
    [args.scalar] exactly when the operation type is binary: for any other
    type the scalar is declared and the fragment does not use it. *)
Theorem scalar_variant_ignores_creation_context
    (creation_context creation_context' : CreationContext)
    (definition : OperationDef) (op_type : OperationType)
    (scalar_parameter : float) :
  CreateElementwiseOneRuntimeOneScalar creation_context definition op_type
    scalar_parameter
  = CreateElementwiseOneRuntimeOneScalar creation_context' definition op_type
      scalar_parameter
  /\ args_ (CreateElementwiseOneRuntimeOneScalar creation_context definition
              op_type scalar_parameter)
     = (if precision_eqb (precision definition) F32
        then [FloatValue "scalar" scalar_parameter]
        else [HalfValue "scalar" (half_of_float scalar_parameter)])
  /\ mentions "args.scalar"
       (code_ (CreateElementwiseOneRuntimeOneScalar creation_context
                 definition op_type scalar_parameter))
     = is_binary op_type.
Proof.
  split; [reflexivity | split; [apply scalar_binding_follows_definition|]].
  destruct op_type; reflexivity.
Qed.

(** X8: a constant-tensor factory hands back the status of the first
    step that fails, the allocation or else the upload, and leaves the
    caller's [result] as it was; it answers with success exactly when the
    allocation and the upload both succeed.  Both overloads do so. *)
Theorem constant_factories_report_first_failure
    (creation_context : CreationContext) (definition : OperationDef)
    (op_type : OperationType) (result : ElementwiseTwoInput)
    (linear_constant : LinearTensor) (hwc_constant : HWCTensor) :
  upload_outcome
    (CreateTensor (context creation_context) (device creation_context)
       (mkBHWC 1 1 1 (v (linear_shape linear_constant)))
       (constant_descriptor creation_context definition
          (mkBHWC 1 1 1 (v (linear_shape linear_constant))))
       empty_tensor)
    (WriteData_Linear (queue creation_context) linear_constant)
    result
    (CreateElementwiseTwoInput_Linear creation_context definition op_type
       linear_constant result)
  /\ upload_outcome
       (CreateTensor (context creation_context) (device creation_context)
          (mkBHWC 1 (hwc_h (hwc_shape hwc_constant))
             (hwc_w (hwc_shape hwc_constant))
             (hwc_c (hwc_shape hwc_constant)))
          (constant_descriptor creation_context definition
             (mkBHWC 1 (hwc_h (hwc_shape hwc_constant))
                (hwc_w (hwc_shape hwc_constant))
                (hwc_c (hwc_shape hwc_constant))))
          empty_tensor)
       (WriteData_HWC (queue creation_context) hwc_constant)
       result
       (CreateElementwiseTwoInput_HWC creation_context definition op_type
          hwc_constant result).
Proof.
  split.
  - rewrite linear_factory_steps. cbv zeta. apply upload_outcome_of_steps.
  - rewrite hwc_factory_steps. cbv zeta. apply upload_outcome_of_steps.
Qed.

(** X9: a linear constant of length C and a planar constant of shape
    (1,1,C) are treated alike: when both factories succeed, the two
    operations have the same broadcast settings and the same fragment. *)
Theorem linear_constant_is_planar_row (creation_context : CreationContext)
    (definition : OperationDef) (op_type : OperationType)
    (result : ElementwiseTwoInput) (linear_constant : LinearTensor)
    (hwc_constant : HWCTensor) :
  hwc_shape hwc_constant = mkHWC 1 1 (v (linear_shape linear_constant)) ->
  ok (fst (CreateElementwiseTwoInput_Linear creation_context definition
             op_type linear_constant result)) = true ->
  ok (fst (CreateElementwiseTwoInput_HWC creation_context definition op_type
             hwc_constant result)) = true ->
  broadcast_
    (snd (CreateElementwiseTwoInput_Linear creation_context definition op_type
            linear_constant result))
  = broadcast_
      (snd (CreateElementwiseTwoInput_HWC creation_context definition op_type
              hwc_constant result))
  /\ code_
       (snd (CreateElementwiseTwoInput_Linear creation_context definition
               op_type linear_constant result))
     = code_
         (snd (CreateElementwiseTwoInput_HWC creation_context definition
                 op_type hwc_constant result)).
Proof.
  intros Hshape. rewrite linear_factory_steps, hwc_factory_steps. cbv zeta.
  rewrite Hshape. cbn [hwc_h hwc_w hwc_c].
  destruct (ok (fst (CreateTensor _ _ _ _ _))) eqn:Hcreated;
    [|cbn [fst]; rewrite Hcreated; intros Hf; discriminate Hf].
  destruct (ok (fst (WriteData_Linear _ _ _))) eqn:Hlinear;
    [|cbn [fst]; rewrite Hlinear; intros Hf; discriminate Hf].
  destruct (ok (fst (WriteData_HWC _ _ _))) eqn:Hplanar;
    [|cbn [fst]; rewrite Hplanar; intros _ Hf; discriminate Hf].
  intros _ _. cbn [snd]. split; [reflexivity | apply constant_ctor_code].
Qed.

Lemma reference_ctor_code (definition definition' : OperationDef)
    (op_type : OperationType) (broadcast : BroadcastSettings)
    (tensor : Tensor) (operation : ElementwiseTwoInput) :
  ElementwiseTwoInput_ctor definition op_type broadcast = Some operation ->
  broadcast_ operation = broadcast
  /\ code_ operation
     = code_ (ElementwiseTwoInput_ctor_constant definition' op_type broadcast
                tensor).
Proof.
  unfold ElementwiseTwoInput_ctor, ElementwiseTwoInput_ctor_constant.
  destruct (nth_error (src_tensors definition) 1) as [second|];
    [|discriminate].
  intros Hsome. injection Hsome as <-.
  destruct (channels broadcast); split; reflexivity.
Qed.

(** X10: the factory for a run-time secondary tensor of a given shape
    reads the width, height and channel extents only: the batch extent
    plays no part, and when none of the three extents is 1 it builds what
    the factory without a shape builds. *)
Theorem runtime_shape_factory_reads_extents (definition : OperationDef)
    (op_type : OperationType) (shape shape' : BHWC) :
  (w shape = w shape' -> h shape = h shape' -> c shape = c shape' ->
   CreateElementwiseTwoInput_shape definition op_type shape
   = CreateElementwiseTwoInput_shape definition op_type shape')
  /\ (w shape <> 1%Z -> h shape <> 1%Z -> c shape <> 1%Z ->
      CreateElementwiseTwoInput_shape definition op_type shape
      = CreateElementwiseTwoInput definition op_type).
Proof.
  unfold CreateElementwiseTwoInput_shape, CreateElementwiseTwoInput. split.
  - intros -> -> ->. reflexivity.
  - intros Hw Hh Hc.
    apply Z.eqb_neq in Hw, Hh, Hc. now rewrite Hw, Hh, Hc.
Qed.

(** X11: the factory for a run-time secondary tensor of shape (b,H,W,C)
    and the factory uploading a planar constant of shape (H,W,C) agree:
    when both produce an operation, the two have the same broadcast
    settings and the same fragment. *)
Theorem runtime_and_constant_factories_agree
    (creation_context : CreationContext) (definition : OperationDef)
    (op_type : OperationType) (result operation : ElementwiseTwoInput)
    (hwc_constant : HWCTensor) (shape : BHWC) :
  h shape = hwc_h (hwc_shape hwc_constant) ->
  w shape = hwc_w (hwc_shape hwc_constant) ->
  c shape = hwc_c (hwc_shape hwc_constant) ->
  CreateElementwiseTwoInput_shape definition op_type shape = Some operation ->
  ok (fst (CreateElementwiseTwoInput_HWC creation_context definition op_type
             hwc_constant result)) = true ->
  broadcast_ operation
  = broadcast_
      (snd (CreateElementwiseTwoInput_HWC creation_context definition op_type
              hwc_constant result))
  /\ code_ operation
     = code_
         (snd (CreateElementwiseTwoInput_HWC creation_context definition
                 op_type hwc_constant result)).
Proof.
  intros Hh Hw Hc Hruntime. unfold CreateElementwiseTwoInput_shape in Hruntime.
  rewrite Hh, Hw, Hc in Hruntime.
  rewrite hwc_factory_steps. cbv zeta.
  destruct (ok (fst (CreateTensor _ _ _ _ _))) eqn:Hcreated;
    [|cbn [fst]; rewrite Hcreated; intros Hf; discriminate Hf].
  destruct (ok (fst (WriteData_HWC _ _ _))) eqn:Hwritten;
    [|cbn [fst]; rewrite Hwritten; intros Hf; discriminate Hf].
  intros _. cbn [snd].
  destruct (reference_ctor_code definition definition op_type _
              (snd (WriteData_HWC (queue creation_context) hwc_constant
                      (snd (CreateTensor (context creation_context)
                              (device creation_context)
                              (mkBHWC 1 (hwc_h (hwc_shape hwc_constant))
                                 (hwc_w (hwc_shape hwc_constant))
                                 (hwc_c (hwc_shape hwc_constant)))
                              (constant_descriptor creation_context definition
                                 (mkBHWC 1 (hwc_h (hwc_shape hwc_constant))
                                    (hwc_w (hwc_shape hwc_constant))
                                    (hwc_c (hwc_shape hwc_constant))))
                              empty_tensor))))
              operation Hruntime) as [Hbroadcast Hcode].
  split; [exact Hbroadcast | exact Hcode].
Qed.

(** X12: [SetArgs] consults the binder for a source list of exactly two
    operands and for no other: with three or more operands it returns
    success and leaves the arguments as they were.  With two operands the
    outcome is decided by the second one alone, not by the first operand
    nor by anything else the operation holds. *)
Theorem SetArgs_reads_only_second_operand
    (operation operation' : ElementwiseTwoInput) (unique_postfix : string)
    (args : Arguments) :
  ((2 < List.length (src_ operation))%nat ->
   SetArgs operation unique_postfix args = (OkStatus, args))
  /\ (forall first first' second,
        src_ operation = [first; second] ->
        src_ operation' = [first'; second] ->
        SetArgs operation unique_postfix args
        = SetArgs operation' unique_postfix args).
Proof.
  split.
  - intros Hlen. apply SetArgs_without_two_operands. lia.
  - intros first first' second Hsrc Hsrc'.
    now rewrite (SetArgs_with_two_operands _ _ _ first second Hsrc),
      (SetArgs_with_two_operands _ _ _ first' second Hsrc').
Qed.

End VariantProperties.

(** ** The further properties on the reference platform *)

Lemma constant_factories_report_first_failure_witness :
  @CreateElementwiseTwoInput_Linear ref_types ref_env (ref_context MALI)
    (ref_definition F16) MUL ref_empty_linear_constant ref_result
  = (ErrorStatus "Failed to allocate device memory", ref_result)
  /\ @CreateElementwiseTwoInput_HWC ref_types ref_env (ref_context MALI)
       (ref_definition F16) MUL ref_short_hwc_constant ref_result
     = (ErrorStatus "Failed to upload data", ref_result).
Proof.
  split.
  - apply (proj1 (proj1 (@constant_factories_report_first_failure ref_types
                           ref_env (ref_context MALI) (ref_definition F16)
                           MUL ref_result ref_empty_linear_constant
                           ref_short_hwc_constant))).
    reflexivity.
  - apply (proj1 (proj2 (proj2 (@constant_factories_report_first_failure
                                  ref_types ref_env (ref_context MALI)
                                  (ref_definition F16) MUL ref_result
                                  ref_empty_linear_constant
                                  ref_short_hwc_constant)))); reflexivity.
Defined.

Lemma linear_constant_is_planar_row_witness :
  broadcast_
    (snd (@CreateElementwiseTwoInput_Linear ref_types ref_env
            (ref_context MALI) (ref_definition F16) MUL ref_linear_constant
            ref_result))
  = broadcast_
      (snd (@CreateElementwiseTwoInput_HWC ref_types ref_env
              (ref_context MALI) (ref_definition F16) MUL ref_hwc_row_constant
              ref_result))
  /\ code_
       (snd (@CreateElementwiseTwoInput_Linear ref_types ref_env
               (ref_context MALI) (ref_definition F16) MUL ref_linear_constant
               ref_result))
     = code_
         (snd (@CreateElementwiseTwoInput_HWC ref_types ref_env
                 (ref_context MALI) (ref_definition F16) MUL
                 ref_hwc_row_constant ref_result)).
Proof.
  apply (@linear_constant_is_planar_row ref_types ref_env (ref_context MALI)
           (ref_definition F16) MUL ref_result ref_linear_constant
           ref_hwc_row_constant); reflexivity.
Defined.

Lemma runtime_shape_factory_reads_extents_witness :
  @CreateElementwiseTwoInput_shape ref_types ref_env (ref_definition F16) SUB
    (mkBHWC 1 1 8 1)
  = @CreateElementwiseTwoInput_shape ref_types ref_env (ref_definition F16) SUB
      (mkBHWC 5 1 8 1)
  /\ @CreateElementwiseTwoInput_shape ref_types ref_env (ref_definition F16)
       SUB (mkBHWC 1 4 8 16)
     = @CreateElementwiseTwoInput ref_types ref_env (ref_definition F16) SUB.
Proof.
  split.
  - apply (proj1 (@runtime_shape_factory_reads_extents ref_types ref_env
                    (ref_definition F16) SUB (mkBHWC 1 1 8 1)
                    (mkBHWC 5 1 8 1))); reflexivity.
  - apply (proj2 (@runtime_shape_factory_reads_extents ref_types ref_env
                    (ref_definition F16) SUB (mkBHWC 1 4 8 16)
                    (mkBHWC 1 4 8 16))); discriminate.
Defined.

Lemma runtime_and_constant_factories_agree_witness :
  exists operation,
    @CreateElementwiseTwoInput_shape ref_types ref_env (ref_definition F16) MUL
      (mkBHWC 7 2 1 2) = Some operation
    /\ broadcast_ operation
       = {| width := true; height := false; channels := false |}
    /\ code_ operation
       = code_
           (snd (@CreateElementwiseTwoInput_HWC ref_types ref_env
                   (ref_context MALI) (ref_definition F16) MUL
                   ref_hwc_constant ref_result)).
Proof.
  eexists. split; [reflexivity|].
  split; [reflexivity|].
  refine (proj2 (@runtime_and_constant_factories_agree ref_types ref_env
                   (ref_context MALI) (ref_definition F16) MUL ref_result _
                   ref_hwc_constant (mkBHWC 7 2 1 2) eq_refl eq_refl eq_refl
                   eq_refl eq_refl)).
Defined.

Lemma SetArgs_reads_only_second_operand_witness :
  @SetArgs ref_types ref_env
    (with_src [ref_tensor 4; ref_tensor 1; ref_tensor 2] ref_result) "_link0"
    ref_kernel_args
  = (OkStatus, ref_kernel_args)
  /\ @SetArgs ref_types ref_env
       (with_src [ref_tensor 4; ref_tensor 1] ref_result) "_link0"
       ref_kernel_args
     = @SetArgs ref_types ref_env
         (with_src [ref_tensor 9; ref_tensor 1] ref_result) "_link0"
         ref_kernel_args.
Proof.
  split.
  - apply (proj1 (@SetArgs_reads_only_second_operand ref_types ref_env
                    (with_src [ref_tensor 4; ref_tensor 1; ref_tensor 2]
                       ref_result)
                    ref_result "_link0" ref_kernel_args)).
    simpl; lia.
  - apply (proj2 (@SetArgs_reads_only_second_operand ref_types ref_env
                    (with_src [ref_tensor 4; ref_tensor 1] ref_result)
                    (with_src [ref_tensor 9; ref_tensor 1] ref_result)
                    "_link0" ref_kernel_args)
             (ref_tensor 4) (ref_tensor 9) (ref_tensor 1) eq_refl eq_refl).
Defined.
